(** * docs/conf.py of Configurature: the Sphinx configuration module

    The module is a straight-line Python script with one conditional.  It is
    embedded as a computation over the interpreter state (the module
    namespace plus the heap of list objects) that may raise; the two
    [setuptools_scm] entry points and [Path.resolve] are the only contacts
    with the outside and are taken as a record of functions. *)

From stdpp Require Import gmap strings list fin_maps.

Open Scope string_scope.

(** ** Python values *)

(** A raised exception: its class name and its message. *)
Record PyExc := mkExc { exc_class : string; exc_msg : string }.

(** What an external call gives back: a value or a raised exception. *)
Inductive result (A : Type) : Type :=
| Ok (a : A)
| Raise (e : PyExc).
Arguments Ok {A} a.
Arguments Raise {A} e.

(** Heap addresses of list objects. *)
Definition loc := nat.

(** What a module-level name can be bound to.  [str] and [bool] objects are
    immutable and are kept by value; a list is a mutable object, so the name
    holds its address; an imported name holds the foreign object
    [module.attr]. *)
Inductive val :=
| VStr (s : string)
| VBool (b : bool)
| VList (l : loc)
| VImport (module attr : string).

(** The [ScmVersion] object setuptools_scm hands to a scheme callable.  The
    module reads only [tag]; [str_tag] is the text [str()] gives for it. *)
Record Tag := mkTag { str_tag : string }.
Record ScmVersion := mkScmVersion {
  tag : Tag;
  distance : nat;
  node : option string;
  dirty : bool
}.

(** [str(x)] on a tag object. *)
Definition py_str (t : Tag) : string := str_tag t.

(** A scheme is a callable from the parsed version to text. *)
Definition scheme := ScmVersion -> string.

(** ** The outside world *)

(** [Path_resolve s] is [Path(s).resolve()]; [get_branch p] is
    [GitWorkdir(p).get_branch()], which is a branch name or Python's [None];
    [get_version root version_scheme local_scheme] is the setuptools_scm
    call, a keyword left out being [None] here. *)
Record World := mkWorld {
  Path_resolve : string -> result string;
  get_branch : string -> result (option string);
  get_version : string -> option scheme -> option scheme -> result string
}.

(** ** Interpreter state *)

Record State := mkState {
  ns : gmap string val;          (* the module namespace *)
  heap : list (list val)         (* list objects, by address *)
}.

Definition initial : State := mkState ∅ [].

(** How a statement ends: normally, or by an exception that nothing caught.
    Either way the state reached so far is kept. *)
Inductive Outcome (A : Type) : Type :=
| Returned (a : A) (st : State)
| Raised (e : PyExc) (st : State).
Arguments Returned {A} a st.
Arguments Raised {A} e st.

Definition state_of {A} (o : Outcome A) : State :=
  match o with Returned _ st => st | Raised _ st => st end.

Definition completed {A} (o : Outcome A) : bool :=
  match o with Returned _ _ => true | Raised _ _ => false end.

Definition Exec (A : Type) : Type := State -> Outcome A.

Definition ret {A} (a : A) : Exec A := fun st => Returned a st.

Definition bind {A B} (m : Exec A) (k : A -> Exec B) : Exec B :=
  fun st =>
    match m st with
    | Returned a st' => k a st'
    | Raised e st' => Raised e st'
    end.

Notation "'let*' x ':=' m 'in' k" := (bind m (fun x => k))
  (at level 10, x name, m at level 100, k at level 200,
   format "'[v' 'let*'  x  ':='  m  'in' '/' k ']'").

(** An external call: its exception, when it raises, is raised here. *)
Definition call {A} (r : result A) : Exec A :=
  fun st => match r with Ok a => Returned a st | Raise e => Raised e st end.

(** [name = v] *)
Definition assign (name : string) (v : val) : Exec unit :=
  fun st => Returned tt (mkState (<[name := v]> (ns st)) (heap st)).

(** A list display [[x1, ..., xn]]: a new list object. *)
Definition new_list (items : list val) : Exec val :=
  fun st => Returned (VList (length (heap st)))
                     (mkState (ns st) (heap st ++ [items])).

(** [from module import attr]; the module is taken to be installed, so the
    statement binds the name and cannot fail. *)
Definition import_from (module attr : string) : Exec unit :=
  assign attr (VImport module attr).

(** [b == s] for [b] a [str] or [None] and [s] a [str]. *)
Definition py_eq_str (b : option string) (s : string) : bool :=
  match b with
  | Some x => String.eqb x s
  | None => false
  end.

(** Top-level statements run in order; an exception ends the run. *)
Fixpoint exec_block (body : list (Exec unit)) : Exec unit :=
  match body with
  | [] => ret tt
  | s :: rest => bind s (fun _ => exec_block rest)
  end.

(** The state after each top-level statement that was run, in order. *)
Fixpoint exec_trace (body : list (Exec unit)) (st : State) : list State :=
  match body with
  | [] => []
  | s :: rest =>
      match s st with
      | Returned _ st' => st' :: exec_trace rest st'
      | Raised _ st' => [st']
      end
  end.

(** ** The module *)

Module conf.

(** [lambda v: str(v.tag)] *)
Definition version_scheme : scheme := fun v => py_str (tag v).

(** [lambda _: ""] *)
Definition local_scheme : scheme := fun _ => "".

Section body.
Context (w : World).

(** Lines 13-21: the [if]/[else] that binds [release]. *)
Definition release_stmt : Exec unit :=
  let* p := call (Path_resolve w "../") in
  let* b := call (get_branch w p) in
  if py_eq_str b "stable" then
    let* r := call (get_version w "../" (Some version_scheme) (Some local_scheme)) in
    assign "release" (VStr r)
  else
    let* r := call (get_version w "../" None None) in
    assign "release" (VStr r).

Definition body : list (Exec unit) :=
  [ import_from "pathlib" "Path";
    import_from "setuptools_scm" "get_version";
    import_from "setuptools_scm.git" "GitWorkdir";
    release_stmt;
    assign "project" (VStr "Configurature");
    assign "copyright" (VStr "2024, Google LLC");
    assign "author" (VStr "Ian Moore");
    (let* l := new_list [] in assign "extensions" l);
    (let* l := new_list [] in assign "templates_path" l);
    (let* l := new_list [] in assign "exclude_patterns" l);
    (let* l := new_list [VStr "myst_parser";
                         VStr "sphinx_tabs.tabs";
                         VStr "sphinx.ext.autosectionlabel"] in
     assign "extensions" l);
    assign "autosectionlabel_prefix_document" (VBool true);
    assign "html_theme" (VStr "sphinx_rtd_theme");
    (let* l := new_list [] in assign "html_static_path" l) ].

(** Running the module from a fresh namespace. *)
Definition run : Outcome unit := exec_block body initial.

(** The states the run goes through, the fresh one first. *)
Definition trace : list State := initial :: exec_trace body initial.

End body.
End conf.

(** ** Reading the result *)

(** The items of the list object a name is bound to. *)
Definition list_of (st : State) (name : string) : option (list val) :=
  match ns st !! name with
  | Some (VList l) => heap st !! l
  | _ => None
  end.

Definition is_import (v : val) : bool :=
  match v with VImport _ _ => true | _ => false end.

Definition is_str (v : val) : bool :=
  match v with VStr _ => true | _ => false end.

(** The names bound by an assignment statement, as opposed to an import. *)
Definition assigned_names (st : State) : gset string :=
  dom (filter (fun kv => is_import kv.2 = false) (ns st)).

(** The names Sphinx reads from this module. *)
Definition config_names : list string :=
  [ "project"; "copyright"; "author"; "release"; "extensions";
    "templates_path"; "exclude_patterns"; "html_theme"; "html_static_path";
    "autosectionlabel_prefix_document" ].

(** The one question the module puts to the outside, in the order the
    [if] statement asks it: resolve the path, read the branch, then make the
    [get_version] call of the branch taken. *)
Definition release_lookup (w : World) : result string :=
  match Path_resolve w "../" with
  | Raise e => Raise e
  | Ok p =>
      match get_branch w p with
      | Raise e => Raise e
      | Ok b =>
          if py_eq_str b "stable"
          then get_version w "../" (Some conf.version_scheme)
                                   (Some conf.local_scheme)
          else get_version w "../" None None
      end
  end.

(** A world in which that question has the answer [x]. *)
Definition answering (x : result string) : World :=
  mkWorld (fun s => Ok s) (fun _ => Ok None) (fun _ _ _ => x).

(** The namespace once the imports are done. *)
Definition imported : gmap string val :=
  list_to_map
    [ ("Path", VImport "pathlib" "Path");
      ("get_version", VImport "setuptools_scm" "get_version");
      ("GitWorkdir", VImport "setuptools_scm.git" "GitWorkdir") ].

(** Every binding of a completed run but [release]. *)
Definition settled : gmap string val :=
  list_to_map
    [ ("project", VStr "Configurature");
      ("copyright", VStr "2024, Google LLC");
      ("author", VStr "Ian Moore");
      ("extensions", VList 3);
      ("templates_path", VList 1);
      ("exclude_patterns", VList 2);
      ("autosectionlabel_prefix_document", VBool true);
      ("html_theme", VStr "sphinx_rtd_theme");
      ("html_static_path", VList 4) ] ∪ imported.

(** The list objects of a completed run, by address. *)
Definition list_objects : list (list val) :=
  [ []; []; [];
    [VStr "myst_parser"; VStr "sphinx_tabs.tabs";
     VStr "sphinx.ext.autosectionlabel"];
    [] ].

Definition completed_state (r : string) : State :=
  mkState (<["release" := VStr r]> settled) list_objects.

(** The names the data model lists as strings and as lists of strings. *)
Definition str_names : list string :=
  [ "project"; "copyright"; "author"; "html_theme"; "release" ].
Definition list_names : list string :=
  [ "extensions"; "templates_path"; "exclude_patterns"; "html_static_path" ].

Definition holds_str (st : State) (name : string) : bool :=
  match ns st !! name with
  | Some v => is_str v
  | None => false
  end.

Definition holds_str_list (st : State) (name : string) : bool :=
  match list_of st name with
  | Some items => forallb is_str items
  | None => false
  end.

Definition unbound (st : State) (name : string) : bool :=
  match ns st !! name with Some _ => false | None => true end.

(** A name that is bound is bound to a value of its declared shape. *)
Definition well_shaped (st : State) : bool :=
  forallb (fun n => unbound st n || holds_str st n) str_names
  && forallb (fun n => unbound st n || holds_str_list st n) list_names.

(** ** Sample worlds *)

Definition v_1_2_3 : ScmVersion :=
  mkScmVersion (mkTag "1.2.3") 0 (Some "g1a2b3c4") false.

(** A checkout whose branch is [br]; versions are formatted as the scheme's
    text for the main part followed by the local part's. *)
Definition world_on (br : option string) (v : ScmVersion) (dev : string) : World :=
  mkWorld
    (fun s => Ok ("/repo/docs/" ++ s))
    (fun _ => Ok br)
    (fun _ vs ls =>
       match vs, ls with
       | Some f, Some g => Ok (f v ++ g v)
       | _, _ => Ok dev
       end).

Definition world_stable : World := world_on (Some "stable") v_1_2_3 "unused".
Definition world_main : World :=
  world_on (Some "main") v_1_2_3 "1.2.4.dev3+g1a2b3c4".
Definition world_detached : World :=
  world_on None v_1_2_3 "1.2.4.dev3+g1a2b3c4".

Definition no_version : PyExc :=
  mkExc "LookupError" "setuptools-scm was unable to detect version".
Definition no_git : PyExc :=
  mkExc "FileNotFoundError" "git".

(** Not a git checkout: version lookup fails. *)
Definition world_no_version (br : option string) : World :=
  mkWorld (fun s => Ok s) (fun _ => Ok br) (fun _ _ _ => Raise no_version).

(** No git executable: the branch lookup itself fails. *)
Definition world_no_git : World :=
  mkWorld (fun s => Ok s) (fun _ => Raise no_git) (fun _ _ _ => Ok "0.1").


(** ** Runs from a namespace that is not empty *)

(** Every name the module binds, by assignment or by import. *)
Definition module_names : list string :=
  config_names ++ ["Path"; "get_version"; "GitWorkdir"].

(** A computation that binds no name outside [names]. *)
Definition binds_only (names : list string) {A} (m : Exec A) : Prop :=
  forall st n, n ∉ names -> ns (state_of (m st)) !! n = ns st !! n.

(** What a reader of the namespace sees under a name: the immediate value,
    or the items of the list object behind it. *)
Definition value_of (st : State) (name : string) : option (val + list val) :=
  match ns st !! name with
  | Some (VList l) => inr <$> heap st !! l
  | Some v => Some (inl v)
  | None => None
  end.

(** The three imports on top of a namespace. *)
Definition after_imports (m : gmap string val) : gmap string val :=
  <["GitWorkdir" := VImport "setuptools_scm.git" "GitWorkdir"]>
    (<["get_version" := VImport "setuptools_scm" "get_version"]>
       (<["Path" := VImport "pathlib" "Path"]> m)).

(** The state a completed run reaches from [st0]: the assignments in the
    order made, the new list objects after those of [st0]. *)
Definition completed_from (st0 : State) (r : string) : State :=
  let a := length (heap st0) in
  mkState
    (<["html_static_path" := VList (a + 4)]>
       (<["html_theme" := VStr "sphinx_rtd_theme"]>
          (<["autosectionlabel_prefix_document" := VBool true]>
             (<["extensions" := VList (a + 3)]>
                (<["exclude_patterns" := VList (a + 2)]>
                   (<["templates_path" := VList (a + 1)]>
                      (<["extensions" := VList a]>
                         (<["author" := VStr "Ian Moore"]>
                            (<["copyright" := VStr "2024, Google LLC"]>
                               (<["project" := VStr "Configurature"]>
                                  (<["release" := VStr r]>
                                     (after_imports (ns st0)))))))))))))
    (heap st0 ++ list_objects).

(** A namespace prepared by the caller before the module runs: a file name,
    a stale [release], and a list the caller owns. *)
Definition preset : State :=
  mkState
    (<["__file__" := VStr "/repo/docs/conf.py"]>
       (<["release" := VStr "stale"]>
          (<["tags" := VList 0]> ∅)))
    [[VStr "html"]].

(** The stable branch of a checkout where the default version lookup would
    fail. *)
Definition world_stable_only : World :=
  mkWorld
    (fun s => Ok ("/repo/docs/" ++ s))
    (fun _ => Ok (Some "stable"))
    (fun _ vs ls =>
       match vs, ls with
       | Some f, Some g => Ok (f v_1_2_3 ++ g v_1_2_3)
       | _, _ => Raise no_version
       end).

(** No such directory: the path cannot be resolved. *)
Definition no_dir : PyExc := mkExc "OSError" "../".
Definition world_no_dir : World :=
  mkWorld (fun _ => Raise no_dir) (fun _ => Ok (Some "stable"))
          (fun _ _ _ => Ok "0.1").

(** Three commits past the tag [1.2.3], with uncommitted changes. *)
Definition v_past_tag : ScmVersion :=
  mkScmVersion (mkTag "1.2.3") 3 (Some "g1a2b3c4") true.

(** The stable branch checked out in that condition. *)
Definition world_stable_dirty : World :=
  world_on (Some "stable") v_past_tag "1.2.4.dev3+g1a2b3c4.d20240101".

(** [world_main] with nothing changed but [get_version], which fails. *)
Definition world_main_no_version : World :=
  mkWorld (Path_resolve world_main) (get_branch world_main)
          (fun _ _ _ => Raise no_version).

(** ** Properties of runs *)

(** A computation that only ever adds list objects: the objects already on
    the heap are still there, unchanged, when it ends. *)
Definition grows {A} (m : Exec A) : Prop :=
  forall st, heap st `prefix_of` heap (state_of (m st)).

(** Two states that an observer who cannot read [hidden] cannot tell apart. *)
Definition agree_off (hidden : string) (s1 s2 : State) : Prop :=
  (forall n, n <> hidden -> ns s1 !! n = ns s2 !! n) /\ heap s1 = heap s2.

(** One of the two setuptools_scm calls the module makes raises [e]: the
    branch lookup, or the [get_version] call of the branch taken. *)
Inductive scm_raises (w : World) (e : PyExc) : Prop :=
| branch_lookup_raises p :
    Path_resolve w "../" = Ok p ->
    get_branch w p = Raise e ->
    scm_raises w e
| stable_version_raises p :
    Path_resolve w "../" = Ok p ->
    get_branch w p = Ok (Some "stable") ->
    get_version w "../" (Some conf.version_scheme) (Some conf.local_scheme)
      = Raise e ->
    scm_raises w e
| default_version_raises p b :
    Path_resolve w "../" = Ok p ->
    get_branch w p = Ok b ->
    b <> Some "stable" ->
    get_version w "../" None None = Raise e ->
    scm_raises w e.

(** Reading a name through a chain of assignments on literal names. *)
Ltac lookup_chain :=
  repeat first [ rewrite lookup_insert_eq
               | rewrite lookup_insert_ne by discriminate ].

(** ** The run, case by case *)

Lemma py_eq_str_true (b : option string) (s : string) :
  py_eq_str b s = true <-> b = Some s.
Proof.
  destruct b as [x|]; simpl.
  - rewrite String.eqb_eq. split; congruence.
  - split; discriminate.
Qed.

Lemma py_eq_str_false (b : option string) (s : string) :
  py_eq_str b s = false <-> b <> Some s.
Proof.
  rewrite <- py_eq_str_true. destruct (py_eq_str b s); split; congruence.
Qed.

Lemma release_stmt_lookup (w : World) (st : State) :
  conf.release_stmt w st =
  match release_lookup w with
  | Ok r => assign "release" (VStr r) st
  | Raise e => Raised e st
  end.
Proof.
  unfold conf.release_stmt, release_lookup, bind, call.
  destruct (Path_resolve w "../") as [p|e]; [|reflexivity].
  destruct (get_branch w p) as [b|e]; [|reflexivity].
  destruct (py_eq_str b "stable");
    match goal with |- context [get_version ?a ?b ?c ?d] =>
      destruct (get_version a b c d) end; reflexivity.
Qed.

Lemma release_lookup_answering (x : result string) :
  release_lookup (answering x) = x.
Proof. reflexivity. Qed.

Lemma exec_block_cons (s : Exec unit) (rest : list (Exec unit)) (st : State) :
  exec_block (s :: rest) st =
  match s st with
  | Returned _ st' => exec_block rest st'
  | Raised e st' => Raised e st'
  end.
Proof. reflexivity. Qed.

(** Statements that agree on every state give the same run and trace. *)
Lemma exec_block_ext (b b' : list (Exec unit)) :
  Forall2 (fun s s' => forall st, s st = s' st) b b' ->
  forall st, exec_block b st = exec_block b' st.
Proof.
  induction 1 as [|s s' rest rest' Hs _ IH]; intros st; [reflexivity|].
  rewrite !exec_block_cons, Hs. destruct (s' st); auto.
Qed.

Lemma exec_trace_ext (b b' : list (Exec unit)) :
  Forall2 (fun s s' => forall st, s st = s' st) b b' ->
  forall st, exec_trace b st = exec_trace b' st.
Proof.
  induction 1 as [|s s' rest rest' Hs _ IH]; intros st; [reflexivity|].
  simpl. rewrite Hs. destruct (s' st); [f_equal; auto | reflexivity].
Qed.

Lemma body_answering (w : World) :
  Forall2 (fun s s' => forall st, s st = s' st)
          (conf.body w) (conf.body (answering (release_lookup w))).
Proof.
  unfold conf.body.
  repeat (constructor; [intros st|]); try constructor; try reflexivity.
  now rewrite !release_stmt_lookup, release_lookup_answering.
Qed.

(** The run depends on the world through [release_lookup] alone. *)
Lemma run_answering (w : World) :
  conf.run w = conf.run (answering (release_lookup w)).
Proof. apply exec_block_ext, body_answering. Qed.

Lemma trace_answering (w : World) :
  conf.trace w = conf.trace (answering (release_lookup w)).
Proof. unfold conf.trace. f_equal. apply exec_trace_ext, body_answering. Qed.

Lemma run_Ok (w : World) (r : string) :
  release_lookup w = Ok r -> conf.run w = Returned tt (completed_state r).
Proof.
  intros H. rewrite run_answering, H. vm_compute. reflexivity.
Qed.

Lemma run_Raise (w : World) (e : PyExc) :
  release_lookup w = Raise e -> conf.run w = Raised e (mkState imported []).
Proof.
  intros H. rewrite run_answering, H. vm_compute. reflexivity.
Qed.

Lemma run_Returned (w : World) (st : State) :
  conf.run w = Returned tt st ->
  exists r, release_lookup w = Ok r /\ st = completed_state r.
Proof.
  intros H. destruct (release_lookup w) as [r|e] eqn:E.
  - rewrite (run_Ok w r E) in H. exists r. split; congruence.
  - rewrite (run_Raise w e E) in H. discriminate.
Qed.

Lemma release_lookup_stable (w : World) (p : string) :
  Path_resolve w "../" = Ok p ->
  get_branch w p = Ok (Some "stable") ->
  release_lookup w =
  get_version w "../" (Some conf.version_scheme) (Some conf.local_scheme).
Proof. intros Hp Hb. unfold release_lookup. now rewrite Hp, Hb. Qed.

Lemma release_lookup_other (w : World) (p : string) (b : option string) :
  Path_resolve w "../" = Ok p ->
  get_branch w p = Ok b ->
  b <> Some "stable" ->
  release_lookup w = get_version w "../" None None.
Proof.
  intros Hp Hb Hne. unfold release_lookup. rewrite Hp, Hb.
  apply py_eq_str_false in Hne. now rewrite Hne.
Qed.

Lemma scm_raises_lookup (w : World) (e : PyExc) :
  scm_raises w e -> release_lookup w = Raise e.
Proof.
  intros [p Hp Hb | p Hp Hb Hv | p b Hp Hb Hne Hv].
  - unfold release_lookup. now rewrite Hp, Hb.
  - now rewrite (release_lookup_stable w p Hp Hb).
  - now rewrite (release_lookup_other w p b Hp Hb Hne).
Qed.

Lemma release_of_completed (r : string) :
  ns (completed_state r) !! "release" = Some (VStr r).
Proof. apply lookup_insert_eq. Qed.

Lemma completed_off_release (r : string) (n : string) :
  n <> "release" -> ns (completed_state r) !! n = settled !! n.
Proof. intros Hn. simpl. now rewrite lookup_insert_ne. Qed.

(** ** The heap only grows *)

Lemma grows_ret {A} (a : A) : grows (ret a).
Proof. intros st. reflexivity. Qed.

Lemma grows_call {A} (x : result A) : grows (call x).
Proof. intros st. unfold call. destruct x; reflexivity. Qed.

Lemma grows_assign (name : string) (v : val) : grows (assign name v).
Proof. intros st. reflexivity. Qed.

Lemma grows_new_list (items : list val) : grows (new_list items).
Proof. intros st. simpl. now apply prefix_app_r. Qed.

Lemma grows_bind {A B} (m : Exec A) (k : A -> Exec B) :
  grows m -> (forall a, grows (k a)) -> grows (bind m k).
Proof.
  intros Hm Hk st. unfold bind. specialize (Hm st).
  destruct (m st) as [a st'|e st']; simpl in *; [|assumption].
  etransitivity; [exact Hm | apply Hk].
Qed.

Lemma grows_release_stmt (w : World) : grows (conf.release_stmt w).
Proof.
  unfold conf.release_stmt.
  apply grows_bind; [apply grows_call | intros p].
  apply grows_bind; [apply grows_call | intros b].
  destruct (py_eq_str b "stable");
    (apply grows_bind; [apply grows_call | intros r; apply grows_assign]).
Qed.

Lemma body_grows (w : World) : Forall grows (conf.body w).
Proof.
  unfold conf.body, import_from.
  repeat constructor;
    first [ apply grows_assign
          | apply grows_release_stmt
          | apply grows_bind;
            [apply grows_new_list | intros l; apply grows_assign] ].
Qed.

Lemma exec_trace_above (body : list (Exec unit)) :
  Forall grows body ->
  forall st, Forall (fun s => heap st `prefix_of` heap s) (exec_trace body st).
Proof.
  induction 1 as [|s rest Hs _ IH]; intros st; simpl; [constructor|].
  specialize (Hs st).
  destruct (s st) as [[] st'|e st']; simpl in Hs; constructor; auto.
  eapply Forall_impl; [apply IH|].
  intros s' Hs'. simpl in Hs'. etransitivity; eassumption.
Qed.

Lemma exec_trace_ordered (body : list (Exec unit)) :
  Forall grows body ->
  forall st i j si sj,
    i <= j ->
    (st :: exec_trace body st) !! i = Some si ->
    (st :: exec_trace body st) !! j = Some sj ->
    heap si `prefix_of` heap sj.
Proof.
  induction 1 as [|s rest Hs Hrest IH]; intros st i j si sj Hij Hi Hj.
  - destruct i, j; simpl in *; try discriminate; try lia.
    now replace sj with si by congruence.
  - destruct i as [|i].
    + simpl in Hi. injection Hi as <-.
      destruct j as [|j]; simpl in Hj; [now injection Hj as <-|].
      pose proof (exec_trace_above (s :: rest) (Forall_cons_2 _ _ _ Hs Hrest) st)
        as Habove.
      rewrite Forall_lookup in Habove. exact (Habove j sj Hj).
    + destruct j as [|j]; [lia|].
      change ((exec_trace (s :: rest) st) !! i = Some si) in Hi.
      change ((exec_trace (s :: rest) st) !! j = Some sj) in Hj.
      simpl in Hi, Hj.
      destruct (s st) as [[] st'|e st'].
      * apply (IH st' i j); [lia | exact Hi | exact Hj].
      * destruct i, j; simpl in *; try discriminate.
        now replace sj with si by congruence.
Qed.

Lemma trace_last (w : World) :
  last (conf.trace w) = Some (state_of (conf.run w)).
Proof.
  rewrite trace_answering, run_answering.
  destruct (release_lookup w); vm_compute; reflexivity.
Qed.

Lemma trace_well_shaped (w : World) :
  forallb well_shaped (conf.trace w) = true.
Proof.
  rewrite trace_answering.
  destruct (release_lookup w); vm_compute; reflexivity.
Qed.

(** ** The release string *)

Lemma append_empty_r (s : string) : s ++ "" = s.
Proof.
  induction s as [|c t IH]; [reflexivity|].
  change (String c (t ++ "") = String c t). now rewrite IH.
Qed.

(** The two lambdas of the stable branch spell the tag and nothing else. *)
Lemma bare_tag (v : ScmVersion) :
  conf.version_scheme v ++ conf.local_scheme v = str_tag (tag v).
Proof. apply append_empty_r. Qed.

(** X4. If setuptools_scm formats a version as the main scheme's text followed
    by the local scheme's, the release shown on the stable branch is the tag
    text and nothing more. *)
Lemma stable_release_is_tag (w : World) (p : string) (v : ScmVersion) :
  (forall vs ls, get_version w "../" (Some vs) (Some ls) = Ok (vs v ++ ls v)) ->
  Path_resolve w "../" = Ok p ->
  get_branch w p = Ok (Some "stable") ->
  conf.run w = Returned tt (completed_state (str_tag (tag v))).
Proof.
  intros Hfmt Hp Hb. apply run_Ok.
  rewrite (release_lookup_stable w p Hp Hb), Hfmt.
  f_equal. apply bare_tag.
Qed.

(** C1. The branch read from [GitWorkdir] on the resolved parent directory
    selects the [get_version] call whose answer becomes [release].  On
    ['stable'] it is the call with the two lambdas, the first giving
    [str(v.tag)] and the second the empty string for every version: when
    [get_version] answers with their texts for the version [v] of the
    checkout, [release] is [str(v.tag)] with nothing after it, whatever the
    distance, node and dirty state of [v].  On any other branch value,
    [None] included, it is the call with only [root='../'], and [release] is
    the string that call returns. *)
Theorem release_follows_branch (w : World) (p : string) (b : option string) :
  Path_resolve w "../" = Ok p ->
  get_branch w p = Ok b ->
  (b = Some "stable" ->
   (forall v,
      get_version w "../" (Some conf.version_scheme) (Some conf.local_scheme)
        = Ok (conf.version_scheme v ++ conf.local_scheme v) ->
      exists st, conf.run w = Returned tt st /\
                 ns st !! "release" = Some (VStr (str_tag (tag v)))) /\
   (forall r,
      get_version w "../" (Some conf.version_scheme) (Some conf.local_scheme)
        = Ok r ->
      exists st, conf.run w = Returned tt st /\
                 ns st !! "release" = Some (VStr r))) /\
  (forall v, conf.version_scheme v = py_str (tag v)) /\
  (forall v, conf.local_scheme v = "") /\
  (b <> Some "stable" ->
   forall r,
     get_version w "../" None None = Ok r ->
     exists st, conf.run w = Returned tt st /\
                ns st !! "release" = Some (VStr r)).
Proof.
  intros Hp Hb.
  assert (b = Some "stable" ->
          forall r,
            get_version w "../" (Some conf.version_scheme)
                        (Some conf.local_scheme) = Ok r ->
            exists st, conf.run w = Returned tt st /\
                       ns st !! "release" = Some (VStr r)) as Hstable.
  { intros Hs r Hr. subst b. exists (completed_state r).
    split; [|apply release_of_completed].
    apply run_Ok. now rewrite (release_lookup_stable w p Hp Hb). }
  split; [|split; [reflexivity|split; [reflexivity|]]].
  - intros Hs. split; [|exact (Hstable Hs)].
    intros v Hv. rewrite <- (bare_tag v). exact (Hstable Hs _ Hv).
  - intros Hne r Hr. exists (completed_state r).
    split; [|apply release_of_completed].
    apply run_Ok. now rewrite (release_lookup_other w p b Hp Hb Hne).
Qed.

Lemma release_follows_branch_witness :
  (exists st, conf.run world_stable_dirty = Returned tt st /\
              ns st !! "release" = Some (VStr "1.2.3")) /\
  (exists st, conf.run world_detached = Returned tt st /\
              ns st !! "release" = Some (VStr "1.2.4.dev3+g1a2b3c4")).
Proof.
  split.
  - destruct (release_follows_branch world_stable_dirty "/repo/docs/../"
                (Some "stable") eq_refl eq_refl) as (Hs & _).
    destruct (Hs eq_refl) as (Htag & _).
    exact (Htag v_past_tag eq_refl).
  - destruct (release_follows_branch world_detached "/repo/docs/../"
                None eq_refl eq_refl) as (_ & _ & _ & Hd).
    apply (Hd ltac:(discriminate) "1.2.4.dev3+g1a2b3c4" eq_refl).
Defined.

(** ** Errors *)

(** C2. When the branch lookup or the [get_version] call of the branch taken
    raises, the run ends with that very exception at the [if] statement:
    the namespace holds the three imports and nothing else, no list object
    was made, none of the configuration names is bound, and none of the
    statements after the [if] was run. *)
Theorem scm_error_propagates (w : World) (e : PyExc) :
  scm_raises w e ->
  exists st,
    conf.run w = Raised e st /\
    ns st = imported /\
    heap st = [] /\
    assigned_names st = ∅ /\
    Forall (fun n => ns st !! n = None) config_names /\
    length (conf.trace w) = 5.
Proof.
  intros H. apply scm_raises_lookup in H.
  exists (mkState imported []). split; [now apply run_Raise|].
  split; [reflexivity|]. split; [reflexivity|].
  split; [vm_compute; reflexivity|].
  split; [repeat constructor|].
  rewrite trace_answering, H. reflexivity.
Qed.

Lemma scm_error_propagates_witness :
  (exists st, conf.run world_no_git = Raised no_git st /\ ns st = imported) /\
  (exists st, conf.run (world_no_version (Some "stable")) = Raised no_version st
              /\ ns st !! "release" = None) /\
  (exists st, conf.run (world_no_version (Some "main")) = Raised no_version st
              /\ ns st !! "release" = None).
Proof.
  split; [|split].
  - destruct (scm_error_propagates world_no_git no_git
                (branch_lookup_raises world_no_git no_git "../" eq_refl eq_refl))
      as (st & Hrun & Hns & _).
    exists st. split; assumption.
  - destruct (scm_error_propagates (world_no_version (Some "stable")) no_version
                (stable_version_raises (world_no_version (Some "stable"))
                   no_version "../" eq_refl eq_refl eq_refl))
      as (st & Hrun & Hns & _).
    exists st. split; [assumption | now rewrite Hns].
  - destruct (scm_error_propagates (world_no_version (Some "main")) no_version
                (default_version_raises (world_no_version (Some "main"))
                   no_version "../" (Some "main") eq_refl eq_refl
                   ltac:(discriminate) eq_refl))
      as (st & Hrun & Hns & _).
    exists st. split; [assumption | now rewrite Hns].
Defined.

(** ** What the branch can influence *)

(** C3, as amended.  Two runs in any two worlds, both completing or both
    ending in an exception, leave every name other than [release] with the
    same binding and leave the same list objects behind: the branch and the
    answers of setuptools_scm reach [release] and nothing else. *)
Theorem branch_noninterference (w1 w2 : World) :
  completed (conf.run w1) = completed (conf.run w2) ->
  agree_off "release" (state_of (conf.run w1)) (state_of (conf.run w2)).
Proof.
  destruct (release_lookup w1) as [r1|e1] eqn:E1;
    destruct (release_lookup w2) as [r2|e2] eqn:E2;
    rewrite ?(run_Ok _ _ E1), ?(run_Ok _ _ E2),
            ?(run_Raise _ _ E1), ?(run_Raise _ _ E2);
    simpl; intros Hc; try discriminate Hc.
  - split; [|reflexivity].
    intros n Hn. now rewrite !completed_off_release.
  - split; reflexivity.
Qed.

Lemma branch_noninterference_witness :
  agree_off "release" (state_of (conf.run world_stable))
                      (state_of (conf.run world_main)) /\
  ns (state_of (conf.run world_stable)) !! "release" = Some (VStr "1.2.3") /\
  ns (state_of (conf.run world_main)) !! "release"
    = Some (VStr "1.2.4.dev3+g1a2b3c4").
Proof.
  split; [|split].
  - apply (branch_noninterference world_stable world_main). reflexivity.
  - reflexivity.
  - reflexivity.
Defined.

(** C3, as stated, fails.  Two worlds with the same path and the same
    branch, differing in the answer of [get_version] alone: where it returns
    the run binds [project], where it raises the run ends before [project]
    is bound, so the two runs differ on a name other than [release]. *)
Lemma version_failure_shows_elsewhere :
  Path_resolve world_main_no_version "../" = Path_resolve world_main "../" /\
  get_branch world_main_no_version "/repo/docs/../"
    = get_branch world_main "/repo/docs/../" /\
  ns (state_of (conf.run world_main)) !! "project"
    = Some (VStr "Configurature") /\
  ns (state_of (conf.run world_main_no_version)) !! "project" = None /\
  ~ (forall w1 w2 : World,
       agree_off "release" (state_of (conf.run w1)) (state_of (conf.run w2))).
Proof.
  assert (ns (state_of (conf.run world_main)) !! "project"
          = Some (VStr "Configurature")) as H1 by (vm_compute; reflexivity).
  assert (ns (state_of (conf.run world_main_no_version)) !! "project" = None)
    as H2 by (vm_compute; reflexivity).
  split; [reflexivity|]. split; [reflexivity|].
  split; [exact H1|]. split; [exact H2|].
  intros Hall.
  destruct (Hall world_main world_main_no_version) as [Hns _].
  specialize (Hns "project" ltac:(discriminate)).
  rewrite H1, H2 in Hns. discriminate Hns.
Qed.

(** ** The names the module defines *)

(** C4. A completed run has bound by assignment exactly the ten names Sphinx
    reads, no more and no fewer; the only other names in the module
    namespace are the three that the import statements bind. *)
Theorem assigned_names_exact (w : World) (st : State) :
  conf.run w = Returned tt st ->
  assigned_names st = list_to_set config_names /\
  NoDup config_names /\
  length config_names = 10 /\
  dom (ns st) = list_to_set config_names ∪ dom imported.
Proof.
  intros H. destruct (run_Returned w st H) as (r & _ & ->).
  repeat split; try reflexivity;
    apply (bool_decide_unpack _); vm_compute; exact I.
Qed.

Lemma assigned_names_exact_witness :
  assigned_names (completed_state "1.2.3") = list_to_set config_names.
Proof.
  apply (assigned_names_exact world_stable (completed_state "1.2.3")).
  vm_compute. reflexivity.
Defined.

(** ** Shapes *)

(** C5. At every point of every run a bound [project], [copyright],
    [author], [html_theme] or [release] is a string and a bound
    [extensions], [templates_path], [exclude_patterns] or [html_static_path]
    is a list of strings; a list object, once made, is the same at every
    later point of the run; and a completed run ends in a state where all
    nine names are bound, with those shapes. *)
Theorem shapes_hold (w : World) :
  (forall s, s ∈ conf.trace w -> well_shaped s = true) /\
  (forall i j si sj l items,
     i <= j ->
     conf.trace w !! i = Some si ->
     conf.trace w !! j = Some sj ->
     heap si !! l = Some items ->
     heap sj !! l = Some items) /\
  (forall st,
     conf.run w = Returned tt st ->
     last (conf.trace w) = Some st /\
     Forall (fun n => exists s, ns st !! n = Some (VStr s)) str_names /\
     Forall (fun n => exists items,
                        list_of st n = Some items /\
                        Forall (fun v => exists s, v = VStr s) items)
            list_names).
Proof.
  split; [|split].
  - intros s Hs. apply list_elem_of_In in Hs.
    pose proof (trace_well_shaped w) as Hall.
    rewrite forallb_forall in Hall. auto.
  - intros i j si sj l items Hij Hi Hj Hl.
    eapply prefix_lookup_Some; [exact Hl|].
    exact (exec_trace_ordered (conf.body w) (body_grows w)
             initial i j si sj Hij Hi Hj).
  - intros st H. split.
    + rewrite trace_last, H. reflexivity.
    + destruct (run_Returned w st H) as (r & _ & ->).
      split; repeat constructor;
        solve [ eexists; vm_compute; reflexivity
              | eexists; split; [vm_compute; reflexivity|];
                repeat constructor; eexists; reflexivity ].
Qed.

Lemma shapes_hold_witness :
  well_shaped (completed_state "1.2.3") = true /\
  last (conf.trace world_stable) = Some (completed_state "1.2.3") /\
  (exists s, ns (completed_state "1.2.3") !! "release" = Some (VStr s)).
Proof.
  destruct (shapes_hold world_stable) as (Hinv & _ & Hend).
  destruct (Hend (completed_state "1.2.3") eq_refl) as (Hlast & Hstr & _).
  split; [|split].
  - apply Hinv. apply (list_elem_of_lookup_2 _ 14).
    vm_compute. reflexivity.
  - exact Hlast.
  - rewrite Forall_forall in Hstr. apply Hstr.
    apply list_elem_of_In. do 4 right. left. reflexivity.
Defined.

(** ** The settings *)

(** C6. A completed run leaves [extensions] bound to the list of the three
    extension names, in the order written.  The empty list of the earlier
    assignment was bound to [extensions] for a while, is a different object
    from the final list, and at the end no name is bound to it. *)
Theorem extensions_final (w : World) (st : State) :
  conf.run w = Returned tt st ->
  list_of st "extensions"
    = Some [VStr "myst_parser"; VStr "sphinx_tabs.tabs";
            VStr "sphinx.ext.autosectionlabel"] /\
  (exists s, s ∈ conf.trace w /\
             ns s !! "extensions" = Some (VList 0) /\
             list_of s "extensions" = Some []) /\
  ns st !! "extensions" = Some (VList 3) /\
  (forall n, ns st !! n <> Some (VList 0)).
Proof.
  intros H. destruct (run_Returned w st H) as (r & Hr & ->).
  split; [reflexivity|]. split; [|split; [reflexivity|]].
  - rewrite trace_answering, Hr.
    eexists. split; [apply (list_elem_of_lookup_2 _ 8); reflexivity|].
    split; vm_compute; reflexivity.
  - intros n Hn. apply elem_of_map_to_list in Hn. revert Hn.
    vm_compute (map_to_list _). rewrite !elem_of_cons, elem_of_nil.
    intros Hn. repeat destruct Hn as [Hn|Hn]; try discriminate Hn.
    exact Hn.
Qed.

Lemma extensions_final_witness :
  list_of (completed_state "1.2.4.dev3+g1a2b3c4") "extensions"
    = Some [VStr "myst_parser"; VStr "sphinx_tabs.tabs";
            VStr "sphinx.ext.autosectionlabel"].
Proof.
  apply (extensions_final world_main (completed_state "1.2.4.dev3+g1a2b3c4")).
  vm_compute. reflexivity.
Defined.

(** C7. A completed run leaves [templates_path], [exclude_patterns] and
    [html_static_path] bound to empty lists and
    [autosectionlabel_prefix_document] to [True], whatever the branch and
    whatever version string came back. *)
Theorem empty_lists_and_flag (w : World) (st : State) :
  conf.run w = Returned tt st ->
  list_of st "templates_path" = Some [] /\
  list_of st "exclude_patterns" = Some [] /\
  list_of st "html_static_path" = Some [] /\
  ns st !! "autosectionlabel_prefix_document" = Some (VBool true).
Proof.
  intros H. destruct (run_Returned w st H) as (r & _ & ->).
  repeat split; vm_compute; reflexivity.
Qed.

Lemma empty_lists_and_flag_witness :
  list_of (completed_state "1.2.3") "templates_path" = Some [] /\
  list_of (completed_state "1.2.3") "exclude_patterns" = Some [] /\
  list_of (completed_state "1.2.3") "html_static_path" = Some [] /\
  ns (completed_state "1.2.3") !! "autosectionlabel_prefix_document"
    = Some (VBool true).
Proof.
  apply (empty_lists_and_flag world_stable (completed_state "1.2.3")).
  vm_compute. reflexivity.
Defined.

(** C8. A completed run leaves [project], [copyright], [author] and
    [html_theme] bound to the four constants of the file, in every world. *)
Theorem identity_and_theme (w : World) (st : State) :
  conf.run w = Returned tt st ->
  ns st !! "project" = Some (VStr "Configurature") /\
  ns st !! "copyright" = Some (VStr "2024, Google LLC") /\
  ns st !! "author" = Some (VStr "Ian Moore") /\
  ns st !! "html_theme" = Some (VStr "sphinx_rtd_theme").
Proof.
  intros H. destruct (run_Returned w st H) as (r & _ & ->).
  repeat split; vm_compute; reflexivity.
Qed.

Lemma identity_and_theme_witness :
  ns (completed_state "1.2.4.dev3+g1a2b3c4") !! "project"
    = Some (VStr "Configurature") /\
  ns (completed_state "1.2.4.dev3+g1a2b3c4") !! "copyright"
    = Some (VStr "2024, Google LLC") /\
  ns (completed_state "1.2.4.dev3+g1a2b3c4") !! "author"
    = Some (VStr "Ian Moore") /\
  ns (completed_state "1.2.4.dev3+g1a2b3c4") !! "html_theme"
    = Some (VStr "sphinx_rtd_theme").
Proof.
  apply (identity_and_theme world_detached
           (completed_state "1.2.4.dev3+g1a2b3c4")).
  vm_compute. reflexivity.
Defined.

(** ** Beyond the branch: the path, the call not made, the ways to fail *)

(** X1. When [Path("../").resolve()] raises, the run ends with that exception at
    the [if] statement, with the three imports bound and nothing else; what
    the branch lookup and [get_version] would have answered plays no part. *)
Theorem resolve_error_propagates (w : World) (e : PyExc) :
  Path_resolve w "../" = Raise e ->
  conf.run w = Raised e (mkState imported []) /\
  length (conf.trace w) = 5.
Proof.
  intros H.
  assert (release_lookup w = Raise e) as Hl
    by (unfold release_lookup; now rewrite H).
  split; [now apply run_Raise|].
  rewrite trace_answering, Hl. reflexivity.
Qed.

Lemma resolve_error_propagates_witness :
  conf.run world_no_dir = Raised no_dir (mkState imported []) /\
  length (conf.trace world_no_dir) = 5.
Proof. apply (resolve_error_propagates world_no_dir no_dir). reflexivity. Defined.

(** X2. Only the [get_version] call of the branch taken is made: two worlds
    that resolve the path alike, report the same branch and answer that one
    call alike give the same run, state by state, whatever the other call
    would do in either. *)
Theorem untaken_call_irrelevant (w1 w2 : World) (p : string) (b : option string) :
  Path_resolve w1 "../" = Ok p ->
  Path_resolve w2 "../" = Ok p ->
  get_branch w1 p = Ok b ->
  get_branch w2 p = Ok b ->
  (if py_eq_str b "stable"
   then get_version w1 "../" (Some conf.version_scheme) (Some conf.local_scheme)
        = get_version w2 "../" (Some conf.version_scheme) (Some conf.local_scheme)
   else get_version w1 "../" None None = get_version w2 "../" None None) ->
  conf.run w1 = conf.run w2 /\ conf.trace w1 = conf.trace w2.
Proof.
  intros Hp1 Hp2 Hb1 Hb2 Hv.
  assert (release_lookup w1 = release_lookup w2) as Hl.
  { unfold release_lookup. rewrite Hp1, Hp2, Hb1, Hb2.
    destruct (py_eq_str b "stable"); exact Hv. }
  split.
  - now rewrite (run_answering w1), (run_answering w2), Hl.
  - now rewrite (trace_answering w1), (trace_answering w2), Hl.
Qed.

Lemma untaken_call_irrelevant_witness :
  conf.run world_stable = conf.run world_stable_only /\
  conf.trace world_stable = conf.trace world_stable_only /\
  get_version world_stable "../" None None = Ok "unused" /\
  get_version world_stable_only "../" None None = Raise no_version.
Proof.
  destruct (untaken_call_irrelevant world_stable world_stable_only
              "/repo/docs/../" (Some "stable")
              eq_refl eq_refl eq_refl eq_refl eq_refl) as [Hr Ht].
  split; [exact Hr|]. split; [exact Ht|]. split; reflexivity.
Defined.



Lemma stable_release_is_tag_witness :
  conf.run world_stable = Returned tt (completed_state "1.2.3").
Proof.
  apply (stable_release_is_tag world_stable "/repo/docs/../" v_1_2_3);
    reflexivity.
Defined.

(** ** Runs from any namespace *)

Lemma exec_body_from (w : World) (st0 : State) :
  exec_block (conf.body w) st0 =
  match release_lookup w with
  | Ok r => Returned tt (completed_from st0 r)
  | Raise e => Raised e (mkState (after_imports (ns st0)) (heap st0))
  end.
Proof.
  destruct st0 as [m h]. unfold conf.body.
  do 3 (rewrite exec_block_cons;
        cbv beta iota delta [import_from assign ns heap]).
  rewrite exec_block_cons, release_stmt_lookup.
  destruct (release_lookup w) as [r|e]; [|reflexivity].
  cbv beta iota delta [exec_block bind assign new_list ret ns heap].
  unfold completed_from, list_objects, after_imports. cbv zeta.
  cbv beta iota delta [ns heap].
  rewrite !length_app. cbn [length].
  rewrite <- !app_assoc. cbn [app].
  replace (length h + 1 + 1) with (length h + 2) by lia.
  replace (length h + 2 + 1) with (length h + 3) by lia.
  replace (length h + 3 + 1) with (length h + 4) by lia.
  reflexivity.
Qed.

Lemma exec_body_Returned (w : World) (st0 st : State) :
  exec_block (conf.body w) st0 = Returned tt st ->
  exists r, release_lookup w = Ok r /\ st = completed_from st0 r.
Proof.
  rewrite exec_body_from. destruct (release_lookup w) as [r|e]; [|discriminate].
  intros [= <-]. exists r. split; reflexivity.
Qed.

Lemma lookup_new_object (h objs : list (list val)) (k : nat) :
  (h ++ objs)%list !! (length h + k) = objs !! k.
Proof. induction h as [|x h IH]; [reflexivity | exact IH]. Qed.

Lemma lookup_first_new_object (h objs : list (list val)) :
  (h ++ objs)%list !! length h = objs !! 0.
Proof. rewrite <- (lookup_new_object h objs 0). f_equal. lia. Qed.

(** *** What each statement may bind *)

Lemma binds_only_ret (names : list string) {A} (a : A) :
  binds_only names (ret a).
Proof. intros st n _. reflexivity. Qed.

Lemma binds_only_call (names : list string) {A} (x : result A) :
  binds_only names (call x).
Proof. intros st n _. unfold call. destruct x; reflexivity. Qed.

Lemma binds_only_assign (names : list string) (name : string) (v : val) :
  name ∈ names -> binds_only names (assign name v).
Proof.
  intros Hin st n Hn. simpl. apply lookup_insert_ne.
  intros ->. contradiction.
Qed.

Lemma binds_only_new_list (names : list string) (items : list val) :
  binds_only names (new_list items).
Proof. intros st n _. reflexivity. Qed.

Lemma binds_only_bind (names : list string) {A B}
      (m : Exec A) (k : A -> Exec B) :
  binds_only names m -> (forall a, binds_only names (k a)) ->
  binds_only names (bind m k).
Proof.
  intros Hm Hk st n Hn. unfold bind. specialize (Hm st n Hn).
  destruct (m st) as [a st'|e st']; simpl in *; [|assumption].
  now rewrite (Hk a st' n Hn).
Qed.

Lemma binds_only_exec_block (names : list string) (body : list (Exec unit)) :
  Forall (binds_only names) body -> binds_only names (exec_block body).
Proof.
  induction 1 as [|s rest Hs _ IH]; simpl.
  - apply binds_only_ret.
  - apply binds_only_bind; [assumption | intros _; assumption].
Qed.

Lemma grows_exec_block (body : list (Exec unit)) :
  Forall grows body -> grows (exec_block body).
Proof.
  induction 1 as [|s rest Hs _ IH]; simpl.
  - apply grows_ret.
  - apply grows_bind; [assumption | intros _; assumption].
Qed.

Lemma in_module_names (name : string) :
  bool_decide (name ∈ module_names) = true -> name ∈ module_names.
Proof. apply bool_decide_eq_true_1. Qed.

Lemma release_stmt_binds_only (w : World) :
  binds_only module_names (conf.release_stmt w).
Proof.
  unfold conf.release_stmt.
  apply binds_only_bind; [apply binds_only_call | intros p].
  apply binds_only_bind; [apply binds_only_call | intros b].
  destruct (py_eq_str b "stable");
    (apply binds_only_bind; [apply binds_only_call | intros r]);
    apply binds_only_assign, in_module_names; reflexivity.
Qed.

Lemma body_binds_only (w : World) :
  Forall (binds_only module_names) (conf.body w).
Proof.
  unfold conf.body, import_from.
  repeat constructor;
    first [ apply release_stmt_binds_only
          | apply binds_only_assign, in_module_names; reflexivity
          | apply binds_only_bind;
            [ apply binds_only_new_list
            | intros l; apply binds_only_assign, in_module_names;
              reflexivity ] ].
Qed.

(** X5. Run in a namespace that already holds bindings, the module leaves every
    name other than the thirteen it binds as it was, keeps every list object
    that was there, and so leaves the value seen under such a name the same,
    whether the run completes or raises. *)
Theorem module_frame (w : World) (st0 : State) :
  let st := state_of (exec_block (conf.body w) st0) in
  (forall n, n ∉ module_names -> ns st !! n = ns st0 !! n) /\
  (forall l items, heap st0 !! l = Some items -> heap st !! l = Some items) /\
  (forall n x, n ∉ module_names ->
               value_of st0 n = Some x -> value_of st n = Some x).
Proof.
  intros st.
  assert (forall n, n ∉ module_names -> ns st !! n = ns st0 !! n) as Hns
    by (intros n Hn; exact (binds_only_exec_block module_names (conf.body w)
                              (body_binds_only w) st0 n Hn)).
  assert (forall (l : loc) items, heap st0 !! l = Some items ->
                                  heap st !! l = Some items) as Hheap.
  { intros l items Hl. eapply prefix_lookup_Some; [exact Hl|].
    exact (grows_exec_block (conf.body w) (body_grows w) st0). }
  split; [exact Hns|]. split; [exact Hheap|].
  intros n x Hn. unfold value_of. rewrite (Hns n Hn).
  destruct (ns st0 !! n) as [[s|b|l|md attr]|]; try (intros H; exact H).
  destruct (heap st0 !! l) as [items|] eqn:Hl; [|discriminate].
  rewrite (Hheap l items Hl). intros H; exact H.
Qed.

Lemma module_frame_witness :
  value_of (state_of (exec_block (conf.body world_stable) preset)) "tags"
    = Some (inr [VStr "html"]) /\
  value_of (state_of (exec_block (conf.body world_no_git) preset)) "__file__"
    = Some (inl (VStr "/repo/docs/conf.py")).
Proof.
  split.
  - apply (proj2 (proj2 (module_frame world_stable preset)) "tags").
    + apply (bool_decide_eq_false_1 _). reflexivity.
    + reflexivity.
  - apply (proj2 (proj2 (module_frame world_no_git preset)) "__file__").
    + apply (bool_decide_eq_false_1 _). reflexivity.
    + reflexivity.
Defined.

(** X6. Whatever the namespace and heap held before, a completed run leaves under
    each of the ten configuration names the value a run from the empty
    namespace leaves there: earlier bindings of these names are overwritten
    and earlier list objects are not reused. *)
Theorem config_ignores_start (w : World) (st0 st : State) (n : string) :
  exec_block (conf.body w) st0 = Returned tt st ->
  n ∈ config_names ->
  is_Some (value_of st n) /\
  value_of st n = value_of (state_of (conf.run w)) n.
Proof.
  intros H Hn. destruct (exec_body_Returned w st0 st H) as (r & Hr & ->).
  rewrite (run_Ok w r Hr). simpl state_of.
  unfold config_names in Hn.
  assert (exists x, value_of (completed_from st0 r) n = Some x /\
                    value_of (completed_state r) n = Some x) as (x & H1 & H2).
  { repeat (apply elem_of_cons in Hn as [->|Hn]);
      [..|now apply elem_of_nil in Hn];
      unfold value_of at 1, completed_from; cbn [ns heap]; lookup_chain;
      rewrite ?lookup_new_object;
      eexists; (split; [|vm_compute; reflexivity]); reflexivity. }
  rewrite H1, H2. split; [eexists|]; reflexivity.
Qed.

Lemma config_ignores_start_witness :
  value_of preset "release" = Some (inl (VStr "stale")) /\
  value_of (completed_from preset "1.2.3") "release"
    = value_of (state_of (conf.run world_stable)) "release" /\
  value_of (completed_from preset "1.2.3") "extensions"
    = value_of (state_of (conf.run world_stable)) "extensions".
Proof.
  assert (exec_block (conf.body world_stable) preset
          = Returned tt (completed_from preset "1.2.3")) as Hrun
    by (vm_compute; reflexivity).
  split; [reflexivity|]. split.
  - apply (config_ignores_start world_stable preset _ "release" Hrun).
    apply (bool_decide_unpack _). reflexivity.
  - apply (config_ignores_start world_stable preset _ "extensions" Hrun).
    apply (bool_decide_unpack _). reflexivity.
Defined.

(** X7. After a completed run from any state, the four list-valued names are
    bound to four different list objects, each made by this run: none is
    shared with another setting or with a list that existed before, so a
    later in-place change to one of them shows under that name alone. *)
Theorem list_settings_distinct (w : World) (st0 st : State) :
  exec_block (conf.body w) st0 = Returned tt st ->
  exists l1 l2 l3 l4,
    ns st !! "extensions" = Some (VList l1) /\
    ns st !! "templates_path" = Some (VList l2) /\
    ns st !! "exclude_patterns" = Some (VList l3) /\
    ns st !! "html_static_path" = Some (VList l4) /\
    NoDup [l1; l2; l3; l4] /\
    Forall (fun l => length (heap st0) <= l < length (heap st))
           [l1; l2; l3; l4].
Proof.
  intros H. destruct (exec_body_Returned w st0 st H) as (r & _ & ->).
  exists (length (heap st0) + 3), (length (heap st0) + 1),
         (length (heap st0) + 2), (length (heap st0) + 4).
  unfold completed_from; cbn [ns heap].
  repeat (split; [lookup_chain; reflexivity|]).
  split.
  - rewrite !NoDup_cons, !elem_of_cons, !elem_of_nil.
    repeat split; try lia; apply NoDup_nil_2.
  - rewrite length_app. unfold list_objects. cbn [length].
    repeat constructor; lia.
Qed.

Lemma list_settings_distinct_witness :
  exists l1 l2 l3 l4,
    ns (completed_from preset "1.2.3") !! "extensions" = Some (VList l1) /\
    ns (completed_from preset "1.2.3") !! "templates_path" = Some (VList l2) /\
    ns (completed_from preset "1.2.3") !! "exclude_patterns" = Some (VList l3) /\
    ns (completed_from preset "1.2.3") !! "html_static_path" = Some (VList l4) /\
    NoDup [l1; l2; l3; l4] /\
    Forall (fun l => 1 <= l < 6) [l1; l2; l3; l4].
Proof.
  apply (list_settings_distinct world_stable preset
           (completed_from preset "1.2.3")).
  vm_compute. reflexivity.
Defined.
